(** * FRustDetailCustomization: the "Rust" category of the entity-component
    details panel.

    The source (RustPlugin/Private/FRustDetailCustomization.cpp) is a single
    detail customization.  Everything it does is a call into the editor that
    hosts the plugin: the layout builder, the property handles of the
    [Components] map, the category builder and the helpers of
    [FDynamicRustComponent].  The two functions are therefore embedded as
    programs over the signature of those calls; running a program against a
    host gives the sequence of calls it made, with the host's answers, and
    the way it ended. *)

From Stdlib Require Import ZArith Lia.
From stdpp Require Import base numbers option list strings pretty.

Open Scope Z_scope.

(** ** Values crossing the plugin/editor boundary *)

Definition FString := string.
Definition FName := string.

(** [LOCTEXT(Key, Source)] inside [LOCTEXT_NAMESPACE]. *)
Record FText := { Namespace : string; Key : string; Source : string }.

Definition LOCTEXT_NAMESPACE : string := "RustDetailCustomization".
Definition LOCTEXT (key source : string) : FText :=
  {| Namespace := LOCTEXT_NAMESPACE; Key := key; Source := source |}.

(** [GET_MEMBER_NAME_CHECKED(UEntityComponent, Components)]: the name of the
    member, checked at compile time. *)
Definition Components_MemberName : FName := "Components".

(** A live editor object is known by its identity.  A [TWeakObjectPtr] is
    either null or refers to an object that may have been destroyed since;
    whether it still resolves is the host's answer at the time of asking. *)
Definition UObject := N.
Abbreviation TWeakObjectPtr := (option UObject).

(** References to host objects.  Property handles are named by how they
    were obtained. *)
Inductive IPropertyHandle : Type :=
| MemberProperty (PropertyName : FName)
| ChildProperty (Parent : IPropertyHandle) (Index : Z)
| KeyProperty (Entry : IPropertyHandle).

Inductive IPropertyHandleMap : Type :=
| MapOf (Property : IPropertyHandle).

Inductive IDetailCategoryBuilder : Type :=
| Category (CategoryName : FName).

Inductive FDetailWidgetRow : Type :=
| CustomRow (In : IDetailCategoryBuilder) (FilterString : FText).

Inductive FDetailWidgetDecl : Type :=
| WholeRow (Row : FDetailWidgetRow).

Inductive IPropertyUtilities : Type :=
| PropertyUtilities.

Inductive FPropertyAccess_Result : Type :=
| FPropertyAccess_MultipleValues
| FPropertyAccess_Fail
| FPropertyAccess_Success.

(** [FOnComponentRemoved()]: the source only ever builds the unbound one. *)
Inductive FOnComponentRemoved : Type :=
| FOnComponentRemoved_Unbound.

(** ** [uint32] and [TArray] *)

Definition uint32_modulus : Z := 2 ^ 32.
Definition uint32_sub (a b : Z) : Z := (a - b) mod uint32_modulus.

Definition IsEmpty {A} (Array : list A) : bool :=
  match Array with [] => true | _ :: _ => false end.

(** ** Programs over a call signature *)

Inductive Fault : Type :=
| IndexOutOfRange     (* TArray::operator[] range check *)
| NullDereference.    (* operator-> on a null TSharedPtr *)

Inductive Prog (E : Type → Type) (A : Type) : Type :=
| Ret (a : A)
| Raise (f : Fault)
| Call {X : Type} (c : E X) (k : X → Prog E A).
Arguments Ret {E A} a.
Arguments Raise {E A} f.
Arguments Call {E A X} c k.

Fixpoint Prog_bind {E A B} (k : A → Prog E B) (p : Prog E A) : Prog E B :=
  match p with
  | Ret a => k a
  | Raise f => Raise f
  | Call c k' => Call c (λ x, Prog_bind k (k' x))
  end.

#[global] Instance Prog_mret {E} : MRet (Prog E) := λ A, Ret.
#[global] Instance Prog_mbind {E} : MBind (Prog E) := λ A B, Prog_bind.

Definition call {E X} (c : E X) : Prog E X := Call c Ret.

(** [Array[Index]] with the range check of [TArray]. *)
Definition TArray_at {E A} (Array : list A) (Index : nat) : Prog E A :=
  match Array !! Index with
  | Some x => Ret x
  | None => Raise IndexOutOfRange
  end.

(** [Ptr->...] on a [TSharedPtr]. *)
Definition deref {E A} (Ptr : option A) : Prog E A :=
  match Ptr with
  | Some x => Ret x
  | None => Raise NullDereference
  end.

(** One call as it happened: the request and the host's answer. *)
Inductive Event (E : Type → Type) : Type :=
| Ev {X : Type} (c : E X) (x : X).
Arguments Ev {E X} c x.

Inductive Outcome (A S : Type) : Type :=
| Done (a : A) (s : S)
| Crashed (f : Fault) (s : S).
Arguments Done {A S} a s.
Arguments Crashed {A S} f s.

(** A host answers every call from its current state and moves on. *)
Definition Host (E : Type → Type) (S : Type) : Type :=
  ∀ X, E X → S → X * S.

Fixpoint run {E S A} (h : Host E S) (p : Prog E A) (s : S)
  : list (Event E) * Outcome A S :=
  match p with
  | Ret a => ([], Done a s)
  | Raise f => ([], Crashed f s)
  | Call c k =>
      let '(x, s1) := h _ c s in
      let '(tr, out) := run h (k x) s1 in
      (Ev c x :: tr, out)
  end.

Definition trace {E S A} (h : Host E S) (p : Prog E A) (s : S) : list (Event E) :=
  (run h p s).1.
Definition outcome {E S A} (h : Host E S) (p : Prog E A) (s : S) : Outcome A S :=
  (run h p s).2.

Section Plugin.

(** The identifier type of a picker node and its string form belong to the
    engine ([Node->Id], [Id.ToString()]). *)
Context {FGuid : Type} (ToString : FGuid → FString).

Record FUuidViewNode := { Id : FGuid }.

(** Calls made by the pick callback.
    - [IsValid]: whether the object a non-null [TWeakObjectPtr] refers to is
      still there;
    - [AsMap], [GetChildHandle], [GetKeyHandle] give a [TSharedPtr], which
      may be null;
    - [GetNumChildren] answers what the call leaves in its [uint32&]
      argument, which the source sets to 0 beforehand;
    - [AddItem] and [SetValue] report a result the source does not look at;
    - [Initialize] is [FDynamicRustComponent::Initialize];
    - [ForceRefreshDetails] is the layout builder's. *)
Inductive PickerCall : Type → Type :=
| IsValid (Object : UObject) : PickerCall bool
| AsMap (Handle : IPropertyHandle) : PickerCall (option IPropertyHandleMap)
| AddItem (Map : IPropertyHandleMap) : PickerCall FPropertyAccess_Result
| GetNumChildren (Handle : IPropertyHandle) : PickerCall Z
| GetChildHandle (Handle : IPropertyHandle) (Index : Z)
    : PickerCall (option IPropertyHandle)
| GetKeyHandle (Handle : IPropertyHandle) : PickerCall (option IPropertyHandle)
| SetValue (Handle : IPropertyHandle) (Value : FString)
    : PickerCall FPropertyAccess_Result
| Initialize (Handle : IPropertyHandle) (Uuid : FGuid) : PickerCall unit
| ForceRefreshDetails : PickerCall unit.

(** [FOnUuidPicked] and the widget that carries it. *)
Inductive FOnUuidPicked : Type :=
| FOnUuidPicked_Unbound
| CreateLambda (Functor : option FUuidViewNode → Prog PickerCall unit).

Record SRustDropdownList := { OnUuidPickedDelegate : FOnUuidPicked }.

(** Calls made while the panel is laid out.
    - [Cast_UEntityComponent]: [Cast<UEntityComponent>] of a weak pointer,
      the object behind it if it is still there and is of that class, null
      otherwise;
    - [GetProperty] gives a [TSharedRef], never null;
    - [Render] is [FDynamicRustComponent::Render];
    - [SetContent] is the bracket of the row's content declaration, which
      takes the widget. *)
Inductive LayoutCall : Type → Type :=
| GetObjectsBeingCustomized : LayoutCall (list TWeakObjectPtr)
| Cast_UEntityComponent (Src : TWeakObjectPtr) : LayoutCall (option UObject)
| GetProperty (PropertyName : FName) : LayoutCall IPropertyHandle
| EditCategory (CategoryName : FName) : LayoutCall IDetailCategoryBuilder
| GetPropertyUtilities : LayoutCall IPropertyUtilities
| Render (Handle : IPropertyHandle) (Builder : IDetailCategoryBuilder)
    (Utilities : IPropertyUtilities) (OnRemoved : FOnComponentRemoved)
    : LayoutCall unit
| AddCustomRow (Builder : IDetailCategoryBuilder) (FilterString : FText)
    : LayoutCall FDetailWidgetRow
| WholeRowContent (Row : FDetailWidgetRow) : LayoutCall FDetailWidgetDecl
| SetContent (Decl : FDetailWidgetDecl) (Widget : SRustDropdownList)
    : LayoutCall unit.

(** [Component == nullptr] on a [TWeakObjectPtr]: a null pointer is null
    whatever the host says, any other is null once its object is gone. *)
Definition IsNullptr (Ptr : TWeakObjectPtr) : Prog PickerCall bool :=
  match Ptr with
  | None => mret true
  | Some Object => Valid ← call (IsValid Object); mret (negb Valid)
  end.

(** The lambda of [CustomizeDetails] (lines 34-50), closed over [Component]
    and [ComponentsHandle]; [Node] is the pointer the picker hands over.
    [Node == nullptr] is tested first and [Component] only if that fails. *)
Definition OnPicked (Component : TWeakObjectPtr)
    (ComponentsHandle : IPropertyHandle) (Node : option FUuidViewNode)
  : Prog PickerCall unit :=
  match Node with
  | None => mret tt
  | Some Node =>
      ComponentIsNull ← IsNullptr Component;
      if ComponentIsNull : bool then mret tt
      else
        (* ComponentsHandle->AsMap()->AddItem(); *)
        Map ← call (AsMap ComponentsHandle) ≫= deref;
        call (AddItem Map);;
        (* uint32 NumChildren = 0;
           ComponentsHandle->GetNumChildren(NumChildren); *)
        NumChildren ← call (GetNumChildren ComponentsHandle);
        (* auto ChildProp = ComponentsHandle->GetChildHandle(NumChildren - 1); *)
        ChildProp ← call (GetChildHandle ComponentsHandle
                            (uint32_sub NumChildren 1)) ≫= deref;
        (* auto KeyProp = ChildProp->GetKeyHandle();
           KeyProp->SetValue(Node->Id.ToString()); *)
        KeyProp ← call (GetKeyHandle ChildProp) ≫= deref;
        call (SetValue KeyProp (ToString (Id Node)));;
        (* FDynamicRustComponent::Initialize(ChildProp, Node->Id); *)
        call (Initialize ChildProp (Id Node));;
        (* DetailBuilder.ForceRefreshDetails(); *)
        call ForceRefreshDetails
  end.

(** [FRustDetailCustomization::CustomizeDetails] (lines 17-58). *)
Definition CustomizeDetails : Prog LayoutCall unit :=
  (* DetailBuilder.GetObjectsBeingCustomized(Objects); *)
  Objects ← call GetObjectsBeingCustomized;
  if IsEmpty Objects then mret tt
  else
    (* Component = Cast<UEntityComponent>(Objects[0]); *)
    Object0 ← TArray_at Objects 0;
    Component ← call (Cast_UEntityComponent Object0);
    ComponentsHandle ← call (GetProperty Components_MemberName);
    RustCategory ← call (EditCategory "Rust");
    (* FDynamicRustComponent::Render(ComponentsHandle, RustCategory,
         DetailBuilder.GetPropertyUtilities(), FOnComponentRemoved()); *)
    Utilities ← call GetPropertyUtilities;
    call (Render ComponentsHandle RustCategory Utilities
            FOnComponentRemoved_Unbound);;
    (* RustCategory.AddCustomRow(LOCTEXT("Picker", "Picker"))
         .WholeRowContent()[ SNew(SRustDropdownList)
            .OnUuidPickedDelegate(FOnUuidPicked::CreateLambda(OnPicked)) ]; *)
    Row ← call (AddCustomRow RustCategory (LOCTEXT "Picker" "Picker"));
    Decl ← call (WholeRowContent Row);
    call (SetContent Decl
            {| OnUuidPickedDelegate :=
                 CreateLambda (OnPicked Component ComponentsHandle) |}).

End Plugin.

Arguments Id {FGuid} _.
Arguments IsValid {FGuid} Object.
Arguments AsMap {FGuid} Handle.
Arguments AddItem {FGuid} Map.
Arguments GetNumChildren {FGuid} Handle.
Arguments GetChildHandle {FGuid} Handle Index.
Arguments GetKeyHandle {FGuid} Handle.
Arguments SetValue {FGuid} Handle Value.
Arguments ForceRefreshDetails {FGuid}.
Arguments GetObjectsBeingCustomized {FGuid}.
Arguments Cast_UEntityComponent {FGuid} Src.
Arguments GetProperty {FGuid} PropertyName.
Arguments EditCategory {FGuid} CategoryName.
Arguments GetPropertyUtilities {FGuid}.
Arguments Render {FGuid} Handle Builder Utilities OnRemoved.
Arguments AddCustomRow {FGuid} Builder FilterString.
Arguments WholeRowContent {FGuid} Row.

(** ** Reading a trace *)

Section Traces.
Context {FGuid : Type}.

(** The calls of the callback that change something in the editor, as
    opposed to the ones that only ask. *)
Definition mutation (e : Event (@PickerCall FGuid)) : bool :=
  match e with
  | Ev c _ =>
      match c with
      | AddItem _ | SetValue _ _ | Initialize _ _ | ForceRefreshDetails => true
      | _ => false
      end
  end.

Definition mutations (tr : list (Event (@PickerCall FGuid)))
  : list (Event (@PickerCall FGuid)) :=
  List.filter mutation tr.

(** The one question the callback asks before its guard has let it
    through, and the one [CustomizeDetails] asks before its own. *)
Definition validity_check (e : Event (@PickerCall FGuid)) : bool :=
  match e with
  | Ev c _ => match c with IsValid _ => true | _ => false end
  end.

Definition selection_query (e : Event (@LayoutCall FGuid)) : bool :=
  match e with
  | Ev c _ => match c with GetObjectsBeingCustomized => true | _ => false end
  end.

(** What was written where. *)
Definition key_written (e : Event (@PickerCall FGuid))
  : option (IPropertyHandle * FString) :=
  match e with
  | Ev c _ => match c with SetValue k v => Some (k, v) | _ => None end
  end.

Definition value_initialized (e : Event (@PickerCall FGuid))
  : option (IPropertyHandle * FGuid) :=
  match e with
  | Ev c _ => match c with Initialize h u => Some (h, u) | _ => None end
  end.

Definition child_count (e : Event (@PickerCall FGuid)) : option Z :=
  match e with
  | Ev c x =>
      match c in PickerCall X return X → option Z with
      | GetNumChildren _ => λ n, Some n
      | _ => λ _, None
      end x
  end.

Definition child_fetched (e : Event (@PickerCall FGuid)) : option Z :=
  match e with
  | Ev c _ => match c with GetChildHandle _ i => Some i | _ => None end
  end.

Definition keys_written (tr : list (Event (@PickerCall FGuid))) :=
  omap key_written tr.
Definition values_initialized (tr : list (Event (@PickerCall FGuid))) :=
  omap value_initialized tr.
Definition child_counts (tr : list (Event (@PickerCall FGuid))) :=
  omap child_count tr.
Definition children_fetched (tr : list (Event (@PickerCall FGuid))) :=
  omap child_fetched tr.

Definition returns {A S} (out : Outcome A S) : bool :=
  match out with Done _ _ => true | Crashed _ _ => false end.

(** [Node == nullptr || Component == nullptr] as the host at hand decides
    it: the test of the callback's guard, left to right. *)
Definition pick_guard {S} (h : Host (@PickerCall FGuid) S) (s : S)
    (Component : TWeakObjectPtr) (Node : option (@FUuidViewNode FGuid)) : bool :=
  match Node with
  | None => true
  | Some _ =>
      match Component with
      | None => true
      | Some Object => negb (h _ (IsValid Object) s).1
      end
  end.

End Traces.

(** ** An editor to run the callback against *)

#[global] Instance IPropertyHandle_eq_dec : EqDecision IPropertyHandle.
Proof. solve_decision. Defined.

Section Editor.
Context {FGuid V : Type}.

(** The [Components] map as the property handle shows it: one child per
    entry, in child order, each with a key and a value. *)
Definition Entry : Type := FString * V.

Record Editor := {
  LiveObjects : list UObject;
  ComponentsMap : list Entry;
  Refreshes : nat
}.

Definition set_entries (s : Editor) (m : list Entry) : Editor :=
  {| LiveObjects := LiveObjects s; ComponentsMap := m; Refreshes := Refreshes s |}.

Definition IsLive (s : Editor) (Object : UObject) : bool :=
  bool_decide (Object ∈ LiveObjects s).

Definition ComponentsProperty : IPropertyHandle :=
  MemberProperty Components_MemberName.

Definition is_components (h : IPropertyHandle) : bool :=
  bool_decide (h = ComponentsProperty).

Definition has_child (s : Editor) (i : Z) : bool :=
  bool_decide (0 ≤ i < Z.of_nat (length (ComponentsMap s))).

Definition set_key (v : FString) (e : Entry) : Entry := (v, e.2).

(** What [AddItem] does to the entries, and what it reports, is the
    editor's business. *)
Context (AddItemEffect : list Entry → FPropertyAccess_Result * list Entry).

Context (InitializeValue : FGuid → V → V).

(** Modelled from the spec: [FDynamicRustComponent::Initialize] (RustProperty)
    is not among the sources; the spec has it "initialize the entry's value",
    so it rewrites the value of the entry its handle stands for, by a
    function of the picked identifier, and leaves the key alone. *)
Definition initialize_entry (u : FGuid) (e : Entry) : Entry :=
  (e.1, InitializeValue u e.2).

(** Modelled from the spec: the property-handle interface of the host editor
    is not part of the repository; the glossary describes a handle as
    "supporting get/set and, for map-typed fields, child/key/value
    enumeration".  Only [Components] is a map here; a child handle exists
    for every index below the number of entries and for no other, and a
    write through a handle reaches the entry the handle stands for. *)
Definition editor : Host (@PickerCall FGuid) Editor :=
  λ X c,
    match c in PickerCall X return Editor → X * Editor with
    | IsValid Object => λ s, (IsLive s Object, s)
    | AsMap h => λ s, (if is_components h then Some (MapOf h) else None, s)
    | AddItem (MapOf h) => λ s,
        if is_components h
        then ((AddItemEffect (ComponentsMap s)).1,
              set_entries s (AddItemEffect (ComponentsMap s)).2)
        else (FPropertyAccess_Fail, s)
    | GetNumChildren h => λ s,
        (if is_components h
         then Z.of_nat (length (ComponentsMap s)) mod uint32_modulus
         else 0, s)
    | GetChildHandle h i => λ s,
        (if is_components h && has_child s i
         then Some (ChildProperty h i) else None, s)
    | GetKeyHandle h => λ s,
        (match h with
         | ChildProperty p i =>
             if is_components p && has_child s i
             then Some (KeyProperty h) else None
         | _ => None
         end, s)
    | SetValue h v => λ s,
        match h with
        | KeyProperty (ChildProperty p i) =>
            if is_components p && has_child s i
            then (FPropertyAccess_Success,
                  set_entries s (alter (set_key v) (Z.to_nat i) (ComponentsMap s)))
            else (FPropertyAccess_Fail, s)
        | _ => (FPropertyAccess_Fail, s)
        end
    | Initialize h u => λ s,
        match h with
        | ChildProperty p i =>
            if is_components p && has_child s i
            then (tt, set_entries s
                        (alter (initialize_entry u) (Z.to_nat i) (ComponentsMap s)))
            else (tt, s)
        | _ => (tt, s)
        end
    | ForceRefreshDetails => λ s,
        (tt, {| LiveObjects := LiveObjects s;
                ComponentsMap := ComponentsMap s;
                Refreshes := Datatypes.S (Refreshes s) |})
    end.

(** The entry a new child starts as. *)
Context (NewEntry : Entry).

(** Modelled from the spec: what [AddItem] does lies with the host editor;
    the spec has a pick "append one map entry", so the new child goes after
    the ones already there. *)
Definition append_item (m : list Entry) : FPropertyAccess_Result * list Entry :=
  (FPropertyAccess_Success, m ++ [NewEntry]).

(** An [AddItem] that is refused: the map stays as it was. *)
Definition refuse_item (m : list Entry) : FPropertyAccess_Result * list Entry :=
  (FPropertyAccess_Fail, m).

(** The count after one more child still fits [uint32]. *)
Definition room_for_one (s : Editor) : Prop :=
  Z.of_nat (length (ComponentsMap s)) + 1 < uint32_modulus.

Context (ToString : FGuid → FString).

(** The entry a pick leaves behind. *)
Definition picked_entry (Node : @FUuidViewNode FGuid) : Entry :=
  (ToString (Id Node), InitializeValue (Id Node) NewEntry.2).

Definition after_pick (s : Editor) (Node : @FUuidViewNode FGuid) : Editor :=
  {| LiveObjects := LiveObjects s;
     ComponentsMap := ComponentsMap s ++ [picked_entry Node];
     Refreshes := Datatypes.S (Refreshes s) |}.

End Editor.

Arguments Editor V : clear implicits.
Arguments Entry V : clear implicits.

(** ** A panel to lay the details out on *)

Section Panel.
Context {FGuid : Type}.

Record Selection := {
  Selected : list TWeakObjectPtr;
  EntityComponents : list UObject
}.

Definition cast_entity_component (s : Selection) (Src : TWeakObjectPtr)
  : option UObject :=
  match Src with
  | Some Object =>
      if bool_decide (Object ∈ EntityComponents s) then Some Object else None
  | None => None
  end.

Definition panel : Host (@LayoutCall FGuid) Selection :=
  λ X c,
    match c in LayoutCall X return Selection → X * Selection with
    | GetObjectsBeingCustomized => λ s, (Selected s, s)
    | Cast_UEntityComponent Src => λ s, (cast_entity_component s Src, s)
    | GetProperty PropertyName => λ s, (MemberProperty PropertyName, s)
    | EditCategory CategoryName => λ s, (Category CategoryName, s)
    | GetPropertyUtilities => λ s, (PropertyUtilities, s)
    | Render _ _ _ _ => λ s, (tt, s)
    | AddCustomRow Builder FilterString => λ s, (CustomRow Builder FilterString, s)
    | WholeRowContent Row => λ s, (WholeRow Row, s)
    | SetContent _ _ => λ s, (tt, s)
    end.

End Panel.

(** ** A small session: one component with one entry, one node to pick *)

Module Session.

(** Identifiers are numbers and print in decimal; a value remembers the
    identifier it was initialized with, if any. *)
Definition Guid : Type := N.
Definition GuidToString (g : Guid) : FString := pretty g.
Definition Value : Type := option Guid.
Definition Init (g : Guid) (_ : Value) : Value := Some g.
Definition Fresh : Entry Value := ("", None).

Definition TheComponent : UObject := 1%N.
Definition Picked : @FUuidViewNode Guid := {| Id := 42%N |}.

Definition one_entry : Editor Value :=
  {| LiveObjects := [TheComponent];
     ComponentsMap := [("7", Some 7%N)];
     Refreshes := 0 |}.

Definition no_entry : Editor Value :=
  {| LiveObjects := [TheComponent]; ComponentsMap := []; Refreshes := 0 |}.

Definition destroyed : Editor Value :=
  {| LiveObjects := []; ComponentsMap := [("7", Some 7%N)]; Refreshes := 0 |}.

Definition nothing_selected : Selection :=
  {| Selected := []; EntityComponents := [TheComponent] |}.

Definition component_selected : Selection :=
  {| Selected := [Some TheComponent]; EntityComponents := [TheComponent] |}.

Definition actor_selected : Selection :=
  {| Selected := [Some 2%N]; EntityComponents := [TheComponent] |}.

End Session.

(** ** Further readings of a run *)

Section Readings.
Context {FGuid : Type} (ToString : FGuid → FString).

(** A handle the host did not give: a null [TSharedPtr] in answer to
    [AsMap], [GetChildHandle] or [GetKeyHandle]. *)
Definition handle_missing (e : Event (@PickerCall FGuid)) : bool :=
  match e with
  | Ev c x =>
      match c in PickerCall X return X → bool with
      | AsMap _ | GetChildHandle _ _ | GetKeyHandle _ =>
          λ Ptr, match Ptr with None => true | Some _ => false end
      | _ => λ _, false
      end x
  end.

(** The property handle a call goes to, for the calls made on the handle
    the callback was closed over. *)
Definition asked_of (e : Event (@PickerCall FGuid)) : option IPropertyHandle :=
  match e with
  | Ev c _ =>
      match c with
      | AsMap h | GetNumChildren h | GetChildHandle h _ => Some h
      | _ => None
      end
  end.

(** The callbacks bound to the widgets put into rows. *)
Definition bound_callback (e : Event (@LayoutCall FGuid))
  : option (option (@FUuidViewNode FGuid) → Prog (@PickerCall FGuid) unit) :=
  match e with
  | Ev c _ =>
      match c with
      | SetContent _ Widget =>
          match OnUuidPickedDelegate Widget with
          | CreateLambda Functor => Some Functor
          | FOnUuidPicked_Unbound => None
          end
      | _ => None
      end
  end.

Definition bound_callbacks (tr : list (Event (@LayoutCall FGuid))) :=
  omap bound_callback tr.

(** Modelled from the spec: the picker widget ([SRustDropdownList]) is not
    among the sources; the glossary has it "driving a callback on
    selection", so a session of picks is the callback run once per
    selection, one after the other; a fault ends the session. *)
Fixpoint deliver (Component : TWeakObjectPtr)
    (ComponentsHandle : IPropertyHandle)
    (Picks : list (option (@FUuidViewNode FGuid)))
  : Prog (@PickerCall FGuid) unit :=
  match Picks with
  | [] => mret tt
  | Node :: Later =>
      OnPicked ToString Component ComponentsHandle Node;;
      deliver Component ComponentsHandle Later
  end.

(** The picks that carry a node. *)
Definition picked_nodes (Picks : list (option (@FUuidViewNode FGuid)))
  : list (@FUuidViewNode FGuid) :=
  omap id Picks.

(** The keys those picks write. *)
Definition picked_keys (Picks : list (option (@FUuidViewNode FGuid)))
  : list FString :=
  (λ Node, ToString (Id Node)) <$> picked_nodes Picks.

End Readings.

Module Picks.

(** Three picks, the second one without a node. *)
Definition Second : @FUuidViewNode Session.Guid := {| Id := 43%N |}.
Definition three : list (option (@FUuidViewNode Session.Guid)) :=
  [Some Session.Picked; None; Some Second].

End Picks.

(** ** Proof steps shared by the results below *)

(** Name the host's answer to the next call of the run in the goal. *)
Ltac answer h :=
  match goal with
  | |- context [h ?X ?c ?s] =>
      let x := fresh "x" in
      let s1 := fresh "s" in
      let Hx := fresh "Hx" in
      destruct (h X c s) as [x s1] eqn:Hx; cbn in *
  end.

(** Follow the run through every answer the host can give. *)
Ltac explore h :=
  repeat first
    [ answer h
    | match goal with
      | x : option _ |- _ => destruct x; cbn in *
      | b : bool |- _ => destruct b; cbn in *
      end ].

Ltac editor_step :=
  cbn -[uint32_sub uint32_modulus Z.of_nat Z.modulo alter has_child
        bool_decide length is_components].

(** ** [uint32] and list facts *)

Lemma uint32_sub_pred (n : Z) :
  1 ≤ n < uint32_modulus → uint32_sub n 1 = n - 1.
Proof.
  unfold uint32_sub, uint32_modulus. intros Hn.
  apply Z.mod_small. lia.
Qed.

Lemma uint32_sub_wraps : uint32_sub 0 1 = uint32_modulus - 1.
Proof. reflexivity. Qed.

Lemma alter_last {A} (f : A → A) (l : list A) (x : A) :
  alter f (length l) (l ++ [x]) = l ++ [f x].
Proof.
  replace (length l) with (length l + 0)%nat by lia.
  rewrite alter_app_r. reflexivity.
Qed.

Lemma IsEmpty_false_head {A} (Objects : list A) :
  IsEmpty Objects = false → ∃ Object0 Others, Objects = Object0 :: Others.
Proof. destruct Objects as [|Object0 Others]; [discriminate | eauto]. Qed.

(** ** [CustomizeDetails] against any host *)

Section LayoutResults.
Context {FGuid : Type} (ToString : FGuid → FString).
Context {S : Type} (h : Host (@LayoutCall FGuid) S).

Lemma CustomizeDetails_no_selection (s : S) :
  (h _ GetObjectsBeingCustomized s).1 = [] →
  run h (CustomizeDetails ToString) s =
    ([Ev GetObjectsBeingCustomized []],
     Done tt (h _ GetObjectsBeingCustomized s).2).
Proof.
  intros Hempty. cbn. answer h. subst. reflexivity.
Qed.

Lemma CustomizeDetails_selection (s : S) Object0 Others s0 :
  h _ GetObjectsBeingCustomized s = (Object0 :: Others, s0) →
  ∃ Component ComponentsHandle RustCategory Utilities Row Decl s1,
    (h _ (Cast_UEntityComponent Object0) s0).1 = Component ∧
    run h (CustomizeDetails ToString) s =
      ([Ev GetObjectsBeingCustomized (Object0 :: Others);
        Ev (Cast_UEntityComponent Object0) Component;
        Ev (GetProperty "Components") ComponentsHandle;
        Ev (EditCategory "Rust") RustCategory;
        Ev GetPropertyUtilities Utilities;
        Ev (Render ComponentsHandle RustCategory Utilities
              FOnComponentRemoved_Unbound) tt;
        Ev (AddCustomRow RustCategory (LOCTEXT "Picker" "Picker")) Row;
        Ev (WholeRowContent Row) Decl;
        Ev (SetContent Decl
              {| OnUuidPickedDelegate :=
                   CreateLambda (OnPicked ToString Component ComponentsHandle) |})
           tt],
       Done tt s1).
Proof.
  intros Hsel.
  destruct (h _ (Cast_UEntityComponent Object0) s0) as [Component s1] eqn:HCast.
  exists Component. cbn. rewrite Hsel. cbn. rewrite HCast. cbn.
  do 7 answer h.
  repeat match goal with u : unit |- _ => destruct u end.
  eexists _, _, _, _, _, _. split; reflexivity.
Qed.

Lemma CustomizeDetails_returns (s : S) :
  ∃ s1, outcome h (CustomizeDetails ToString) s = Done tt s1.
Proof.
  unfold outcome.
  destruct (h _ GetObjectsBeingCustomized s) as [Objects s0] eqn:Hsel.
  destruct Objects as [|Object0 Others].
  - rewrite CustomizeDetails_no_selection by (rewrite Hsel; reflexivity).
    eauto.
  - destruct (CustomizeDetails_selection s _ _ _ Hsel)
      as (? & ? & ? & ? & ? & ? & s1 & _ & Hrun).
    rewrite Hrun. eauto.
Qed.

End LayoutResults.

(** ** [OnPicked] against any host *)

Section PickerResults.
Context {FGuid : Type} (ToString : FGuid → FString).
Context {S : Type} (h : Host (@PickerCall FGuid) S).

Lemma OnPicked_null_node (s : S) Component ComponentsHandle :
  run h (OnPicked ToString Component ComponentsHandle None) s = ([], Done tt s).
Proof. reflexivity. Qed.

Lemma OnPicked_null_component (s : S) ComponentsHandle Node :
  run h (OnPicked ToString None ComponentsHandle Node) s = ([], Done tt s).
Proof. destruct Node; reflexivity. Qed.

Lemma OnPicked_stale_component (s : S) Object ComponentsHandle Node :
  (h _ (IsValid Object) s).1 = false →
  run h (OnPicked ToString (Some Object) ComponentsHandle (Some Node)) s =
    ([Ev (IsValid Object) false], Done tt (h _ (IsValid Object) s).2).
Proof.
  intros Hstale. cbn. answer h. subst. reflexivity.
Qed.

(** On its guard the callback asks at most whether the component is still
    there, changes nothing and comes back. *)
Lemma OnPicked_guarded (s : S) Component ComponentsHandle Node :
  pick_guard h s Component Node = true →
  mutations (trace h (OnPicked ToString Component ComponentsHandle Node) s) = []
  ∧ Forall (λ e, validity_check e = true)
      (trace h (OnPicked ToString Component ComponentsHandle Node) s)
  ∧ (length (trace h (OnPicked ToString Component ComponentsHandle Node) s) ≤ 1)%nat
  ∧ returns (outcome h (OnPicked ToString Component ComponentsHandle Node) s)
    = true.
Proof.
  unfold trace, outcome, pick_guard.
  destruct Node as [Node|].
  - destruct Component as [Object|].
    + intros Hstale. apply negb_true_iff in Hstale.
      rewrite OnPicked_stale_component by exact Hstale. cbn.
      repeat split; [repeat constructor | lia].
    + intros _. rewrite OnPicked_null_component. cbn.
      repeat split; [constructor | lia].
  - intros _. rewrite OnPicked_null_node. cbn.
    repeat split; [constructor | lia].
Qed.

(** Whatever the host answers, the index asked of [GetChildHandle] is the
    count [GetNumChildren] gave, less one, in [uint32]. *)
Lemma OnPicked_fetches_count_minus_one (s : S) Component ComponentsHandle Node :
  children_fetched (trace h (OnPicked ToString Component ComponentsHandle Node) s)
  = (λ NumChildren, uint32_sub NumChildren 1) <$>
      child_counts (trace h (OnPicked ToString Component ComponentsHandle Node) s).
Proof.
  unfold trace. destruct Node as [Node|], Component as [Object|]; cbn;
    try reflexivity.
  explore h; reflexivity.
Qed.

(** Whatever the host answers, nothing but the picked identifier is
    written: its string form as a key, itself to [Initialize]. *)
Lemma OnPicked_writes_picked_uuid (s : S) Component ComponentsHandle Node :
  Forall (λ kv, kv.2 = ToString (Id Node))
    (keys_written
       (trace h (OnPicked ToString Component ComponentsHandle (Some Node)) s))
  ∧ Forall (λ hu, hu.2 = Id Node)
      (values_initialized
         (trace h (OnPicked ToString Component ComponentsHandle (Some Node)) s)).
Proof.
  unfold trace. destruct Component as [Object|]; cbn.
  - explore h; split; repeat constructor.
  - split; constructor.
Qed.

(** A callback that gets past its guard and comes back has made its four
    changes, once each and in this order, the last three on the child it
    fetched at the count less one. *)
Lemma OnPicked_changes_in_order (s : S) Object ComponentsHandle Node :
  (h _ (IsValid Object) s).1 = true →
  returns (outcome h
             (OnPicked ToString (Some Object) ComponentsHandle (Some Node)) s)
    = true →
  let tr :=
    trace h (OnPicked ToString (Some Object) ComponentsHandle (Some Node)) s in
  ∃ Map NumChildren ChildProp KeyProp r1 r2,
    In (Ev (GetNumChildren ComponentsHandle) NumChildren) tr
    ∧ In (Ev (GetChildHandle ComponentsHandle (uint32_sub NumChildren 1))
            (Some ChildProp)) tr
    ∧ In (Ev (GetKeyHandle ChildProp) (Some KeyProp)) tr
    ∧ mutations tr
      = [Ev (AddItem Map) r1;
         Ev (SetValue KeyProp (ToString (Id Node))) r2;
         Ev (Initialize ChildProp (Id Node)) tt;
         Ev ForceRefreshDetails tt]
    ∧ keys_written tr = [(KeyProp, ToString (Id Node))]
    ∧ values_initialized tr = [(ChildProp, Id Node)].
Proof.
  unfold trace, outcome. cbn. intros Hvalid Hret.
  explore h; try discriminate.
  repeat match goal with u : unit |- _ => destruct u end.
  eexists _, _, _, _, _, _. cbn. intuition eauto 12.
Qed.

End PickerResults.

(** ** [OnPicked] against the editor *)

Lemma is_components_self : is_components ComponentsProperty = true.
Proof. reflexivity. Qed.

Section EditorResults.
Context {FGuid V : Type} (ToString : FGuid → FString).
Context (NewEntry : Entry V) (InitializeValue : FGuid → V → V).

Lemma has_child_set_entries (s : Editor V) (m : list (Entry V)) (i : Z) :
  0 ≤ i < Z.of_nat (length m) → has_child (set_entries s m) i = true.
Proof.
  intros Hi. unfold has_child. apply bool_decide_eq_true. exact Hi.
Qed.

(** The whole run of a pick that gets past the guard, whatever [AddItem]
    does, as long as it leaves the map with a child and a count that fits
    [uint32]. *)
Lemma OnPicked_on_any_editor AddItemEffect (s : Editor V) Object Node :
  IsLive s Object = true →
  let Items := (AddItemEffect (ComponentsMap s)).2 in
  1 ≤ Z.of_nat (length Items) < uint32_modulus →
  let Last := Z.of_nat (length Items) - 1 in
  let ChildProp := ChildProperty ComponentsProperty Last in
  run (editor AddItemEffect InitializeValue)
      (OnPicked ToString (Some Object) ComponentsProperty (Some Node)) s
  = ([Ev (IsValid Object) true;
      Ev (AsMap ComponentsProperty) (Some (MapOf ComponentsProperty));
      Ev (AddItem (MapOf ComponentsProperty))
         (AddItemEffect (ComponentsMap s)).1;
      Ev (GetNumChildren ComponentsProperty) (Z.of_nat (length Items));
      Ev (GetChildHandle ComponentsProperty Last) (Some ChildProp);
      Ev (GetKeyHandle ChildProp) (Some (KeyProperty ChildProp));
      Ev (SetValue (KeyProperty ChildProp) (ToString (Id Node)))
         FPropertyAccess_Success;
      Ev (Initialize ChildProp (Id Node)) tt;
      Ev ForceRefreshDetails tt],
     Done tt
       {| LiveObjects := LiveObjects s;
          ComponentsMap :=
            alter (initialize_entry InitializeValue (Id Node)) (Z.to_nat Last)
              (alter (set_key (ToString (Id Node))) (Z.to_nat Last) Items);
          Refreshes := Datatypes.S (Refreshes s) |}).
Proof.
  intros Hlive Items Hcount Last ChildProp.
  assert (HNum : Z.of_nat (length Items) mod uint32_modulus
                 = Z.of_nat (length Items)).
  { apply Z.mod_small. lia. }
  assert (HLast : uint32_sub (Z.of_nat (length Items)) 1 = Last).
  { apply uint32_sub_pred. exact Hcount. }
  fold Items in HNum.
  repeat (editor_step; fold Items;
          rewrite ?Hlive, ?is_components_self, ?HNum, ?HLast,
            ?has_child_set_entries
            by (rewrite ?length_alter; unfold Last; lia)).
  reflexivity.
Qed.

(** The same run when [AddItem] appends. *)
Lemma OnPicked_on_editor (s : Editor V) Object Node :
  IsLive s Object = true →
  room_for_one s →
  let Last := Z.of_nat (length (ComponentsMap s)) in
  let ChildProp := ChildProperty ComponentsProperty Last in
  run (editor (append_item NewEntry) InitializeValue)
      (OnPicked ToString (Some Object) ComponentsProperty (Some Node)) s
  = ([Ev (IsValid Object) true;
      Ev (AsMap ComponentsProperty) (Some (MapOf ComponentsProperty));
      Ev (AddItem (MapOf ComponentsProperty)) FPropertyAccess_Success;
      Ev (GetNumChildren ComponentsProperty) (Last + 1);
      Ev (GetChildHandle ComponentsProperty Last) (Some ChildProp);
      Ev (GetKeyHandle ChildProp) (Some (KeyProperty ChildProp));
      Ev (SetValue (KeyProperty ChildProp) (ToString (Id Node)))
         FPropertyAccess_Success;
      Ev (Initialize ChildProp (Id Node)) tt;
      Ev ForceRefreshDetails tt],
     Done tt (after_pick InitializeValue NewEntry ToString s Node)).
Proof.
  intros Hlive Hroom Last ChildProp. unfold room_for_one in Hroom.
  assert (HLen : length (ComponentsMap s ++ [NewEntry])
                 = Datatypes.S (length (ComponentsMap s))).
  { rewrite length_app. cbn. lia. }
  rewrite (OnPicked_on_any_editor (append_item NewEntry) s Object Node Hlive)
    by (cbn [append_item snd]; rewrite HLen; lia).
  cbn [append_item fst snd]. rewrite HLen.
  replace (Z.of_nat (Datatypes.S (length (ComponentsMap s))) - 1) with Last
    by (unfold Last; lia).
  replace (Z.of_nat (Datatypes.S (length (ComponentsMap s)))) with (Last + 1)
    by (unfold Last; lia).
  replace (Z.to_nat Last) with (length (ComponentsMap s)) by (unfold Last; lia).
  rewrite !alter_last. reflexivity.
Qed.

(** On the guard the editor is left exactly as it was, whatever its
    [AddItem] would have done. *)
Lemma OnPicked_on_editor_guarded AddItemEffect (s : Editor V)
    Component ComponentsHandle Node :
  pick_guard (editor AddItemEffect InitializeValue) s Component Node = true →
  outcome (editor AddItemEffect InitializeValue)
    (OnPicked ToString Component ComponentsHandle Node) s = Done tt s.
Proof.
  unfold outcome, pick_guard.
  destruct Node as [Node|]; [destruct Component as [Object|] |].
  - intros Hstale. apply negb_true_iff in Hstale.
    rewrite OnPicked_stale_component by exact Hstale. reflexivity.
  - intros _. rewrite OnPicked_null_component. reflexivity.
  - intros _. rewrite OnPicked_null_node. reflexivity.
Qed.

(** With no child after [AddItem] the index wraps, no child handle comes
    back, and the callback stops at the arrow. *)
Lemma OnPicked_without_children (s : Editor V) Object Node :
  IsLive s Object = true →
  ComponentsMap s = [] →
  run (editor refuse_item InitializeValue)
      (OnPicked ToString (Some Object) ComponentsProperty (Some Node)) s
  = ([Ev (IsValid Object) true;
      Ev (AsMap ComponentsProperty) (Some (MapOf ComponentsProperty));
      Ev (AddItem (MapOf ComponentsProperty)) FPropertyAccess_Fail;
      Ev (GetNumChildren ComponentsProperty) 0;
      Ev (GetChildHandle ComponentsProperty 4294967295) None],
     Crashed NullDereference s).
Proof.
  intros Hlive Hempty. destruct s as [live m r]. cbn in Hempty. subst m.
  editor_step. rewrite Hlive. reflexivity.
Qed.

End EditorResults.

(** ** The stated properties *)

(** C1. A pick that arrives with a node and a component that is still there
    does four things, once each and in this order: [AddItem] on the
    [Components] map, [SetValue] on the new entry's key, [Initialize] on the
    new entry, [ForceRefreshDetails].  Against any host this is what a
    callback that comes back has done; against the editor it always comes
    back, and the whole run is the one written out. *)
Theorem OnPicked_appends_keys_initializes_refreshes
    {FGuid V : Type} (ToString : FGuid → FString)
    (NewEntry : Entry V) (InitializeValue : FGuid → V → V) :
  (∀ (S : Type) (h : Host (@PickerCall FGuid) S) (s : S)
     Object ComponentsHandle Node,
     (h _ (IsValid Object) s).1 = true →
     returns (outcome h
        (OnPicked ToString (Some Object) ComponentsHandle (Some Node)) s) = true →
     ∃ Map ChildProp KeyProp r1 r2,
       mutations (trace h
         (OnPicked ToString (Some Object) ComponentsHandle (Some Node)) s)
       = [Ev (AddItem Map) r1;
          Ev (SetValue KeyProp (ToString (Id Node))) r2;
          Ev (Initialize ChildProp (Id Node)) tt;
          Ev ForceRefreshDetails tt])
  ∧ (∀ (s : Editor V) Object Node,
       IsLive s Object = true →
       room_for_one s →
       let Last := Z.of_nat (length (ComponentsMap s)) in
       let ChildProp := ChildProperty ComponentsProperty Last in
       run (editor (append_item NewEntry) InitializeValue)
           (OnPicked ToString (Some Object) ComponentsProperty (Some Node)) s
       = ([Ev (IsValid Object) true;
           Ev (AsMap ComponentsProperty) (Some (MapOf ComponentsProperty));
           Ev (AddItem (MapOf ComponentsProperty)) FPropertyAccess_Success;
           Ev (GetNumChildren ComponentsProperty) (Last + 1);
           Ev (GetChildHandle ComponentsProperty Last) (Some ChildProp);
           Ev (GetKeyHandle ChildProp) (Some (KeyProperty ChildProp));
           Ev (SetValue (KeyProperty ChildProp) (ToString (Id Node)))
              FPropertyAccess_Success;
           Ev (Initialize ChildProp (Id Node)) tt;
           Ev ForceRefreshDetails tt],
          Done tt (after_pick InitializeValue NewEntry ToString s Node))).
Proof.
  split.
  - intros S h s Object ComponentsHandle Node Hvalid Hret.
    destruct (OnPicked_changes_in_order ToString h s Object ComponentsHandle
                Node Hvalid Hret)
      as (Map & _ & ChildProp & KeyProp & r1 & r2 & _ & _ & _ & Hmut & _).
    exists Map, ChildProp, KeyProp, r1, r2. exact Hmut.
  - intros s Object Node Hlive Hroom.
    apply OnPicked_on_editor; assumption.
Qed.

Lemma OnPicked_appends_keys_initializes_refreshes_session :
  (∃ Map ChildProp KeyProp r1 r2,
     mutations (trace (editor (append_item Session.Fresh) Session.Init)
       (OnPicked Session.GuidToString (Some Session.TheComponent)
          ComponentsProperty (Some Session.Picked)) Session.one_entry)
     = [Ev (AddItem Map) r1;
        Ev (SetValue KeyProp "42") r2;
        Ev (Initialize ChildProp 42%N) tt;
        Ev ForceRefreshDetails tt])
  ∧ outcome (editor (append_item Session.Fresh) Session.Init)
      (OnPicked Session.GuidToString (Some Session.TheComponent)
         ComponentsProperty (Some Session.Picked)) Session.one_entry
    = Done tt {| LiveObjects := [Session.TheComponent];
                 ComponentsMap := [("7", Some 7%N); ("42", Some 42%N)];
                 Refreshes := 1 |}.
Proof.
  split.
  - apply (proj1 (OnPicked_appends_keys_initializes_refreshes
                    Session.GuidToString Session.Fresh Session.Init));
      vm_compute; reflexivity.
  - unfold outcome.
    rewrite (proj2 (OnPicked_appends_keys_initializes_refreshes
                      Session.GuidToString Session.Fresh Session.Init));
      [reflexivity | reflexivity | reflexivity].
Defined.

(** C2. A pick whose node is null, or whose component is null or gone,
    changes nothing: no [AddItem], no [SetValue], no [Initialize], no
    [ForceRefreshDetails], and the callback comes back; the editor is left
    in the state it was in, its map included. *)
Theorem OnPicked_guard_leaves_everything
    {FGuid V : Type} (ToString : FGuid → FString)
    (InitializeValue : FGuid → V → V) :
  (∀ (S : Type) (h : Host (@PickerCall FGuid) S) (s : S)
     Component ComponentsHandle Node,
     pick_guard h s Component Node = true →
     mutations (trace h (OnPicked ToString Component ComponentsHandle Node) s)
       = []
     ∧ returns (outcome h (OnPicked ToString Component ComponentsHandle Node) s)
       = true)
  ∧ (∀ AddItemEffect (s : Editor V) Component ComponentsHandle Node,
       pick_guard (editor AddItemEffect InitializeValue) s Component Node = true →
       outcome (editor AddItemEffect InitializeValue)
         (OnPicked ToString Component ComponentsHandle Node) s = Done tt s).
Proof.
  split.
  - intros S h s Component ComponentsHandle Node Hguard.
    destruct (OnPicked_guarded ToString h s Component ComponentsHandle Node
                Hguard) as (Hmut & _ & _ & Hret).
    split; assumption.
  - intros AddItemEffect s Component ComponentsHandle Node Hguard.
    apply OnPicked_on_editor_guarded. exact Hguard.
Qed.

Lemma OnPicked_guard_leaves_everything_session :
  (mutations (trace (editor (append_item Session.Fresh) Session.Init)
     (OnPicked Session.GuidToString (Some Session.TheComponent)
        ComponentsProperty (Some Session.Picked)) Session.destroyed) = []
   ∧ returns (outcome (editor (append_item Session.Fresh) Session.Init)
       (OnPicked Session.GuidToString (Some Session.TheComponent)
          ComponentsProperty (Some Session.Picked)) Session.destroyed) = true)
  ∧ outcome (editor (append_item Session.Fresh) Session.Init)
      (OnPicked Session.GuidToString (Some Session.TheComponent)
         ComponentsProperty None) Session.one_entry
    = Done tt Session.one_entry.
Proof.
  split.
  - apply (proj1 (OnPicked_guard_leaves_everything
                    Session.GuidToString Session.Init)).
    reflexivity.
  - apply (proj2 (OnPicked_guard_leaves_everything
                    Session.GuidToString Session.Init)).
    reflexivity.
Defined.

(** C3. When nothing is being customized, [CustomizeDetails] asks for the
    objects and returns: no property handle is fetched, no category is
    edited, nothing is rendered and no row is added. *)
Theorem CustomizeDetails_nothing_selected
    {FGuid : Type} (ToString : FGuid → FString)
    {S : Type} (h : Host (@LayoutCall FGuid) S) (s : S) :
  IsEmpty (h _ GetObjectsBeingCustomized s).1 = true →
  run h (CustomizeDetails ToString) s
  = ([Ev GetObjectsBeingCustomized []],
     Done tt (h _ GetObjectsBeingCustomized s).2).
Proof.
  intros Hempty. apply CustomizeDetails_no_selection.
  destruct (h _ GetObjectsBeingCustomized s).1; [reflexivity | discriminate].
Qed.

Lemma CustomizeDetails_nothing_selected_session :
  run panel (CustomizeDetails Session.GuidToString) Session.nothing_selected
  = ([Ev GetObjectsBeingCustomized []], Done tt Session.nothing_selected).
Proof.
  apply (CustomizeDetails_nothing_selected Session.GuidToString panel
           Session.nothing_selected).
  reflexivity.
Defined.

(** C4. The key written by a pick is the string form of the picked node's
    identifier and [Initialize] is handed that same identifier: against any
    host nothing else is ever written, and against the editor the entry the
    pick adds ends up under that key. *)
Theorem OnPicked_keys_entry_by_picked_uuid
    {FGuid V : Type} (ToString : FGuid → FString)
    (NewEntry : Entry V) (InitializeValue : FGuid → V → V) :
  (∀ (S : Type) (h : Host (@PickerCall FGuid) S) (s : S)
     Component ComponentsHandle Node,
     Forall (λ kv, kv.2 = ToString (Id Node))
       (keys_written (trace h
          (OnPicked ToString Component ComponentsHandle (Some Node)) s))
     ∧ Forall (λ hu, hu.2 = Id Node)
         (values_initialized (trace h
            (OnPicked ToString Component ComponentsHandle (Some Node)) s)))
  ∧ (∀ (s : Editor V) Object Node,
       IsLive s Object = true →
       room_for_one s →
       let Last := Z.of_nat (length (ComponentsMap s)) in
       let ChildProp := ChildProperty ComponentsProperty Last in
       let tr := trace (editor (append_item NewEntry) InitializeValue)
           (OnPicked ToString (Some Object) ComponentsProperty (Some Node)) s in
       keys_written tr = [(KeyProperty ChildProp, ToString (Id Node))]
       ∧ values_initialized tr = [(ChildProp, Id Node)]
       ∧ ∃ s1,
           outcome (editor (append_item NewEntry) InitializeValue)
             (OnPicked ToString (Some Object) ComponentsProperty (Some Node)) s
           = Done tt s1
           ∧ ComponentsMap s1 =
               ComponentsMap s
                 ++ [(ToString (Id Node), InitializeValue (Id Node) NewEntry.2)]).
Proof.
  split.
  - intros S h s Component ComponentsHandle Node.
    apply OnPicked_writes_picked_uuid.
  - intros s Object Node Hlive Hroom Last ChildProp tr.
    subst tr. unfold trace, outcome.
    rewrite (OnPicked_on_editor ToString NewEntry InitializeValue s Object Node
               Hlive Hroom).
    cbn. repeat split. eexists. split; reflexivity.
Qed.

Lemma OnPicked_keys_entry_by_picked_uuid_session :
  keys_written (trace (editor (append_item Session.Fresh) Session.Init)
    (OnPicked Session.GuidToString (Some Session.TheComponent)
       ComponentsProperty (Some Session.Picked)) Session.one_entry)
  = [(KeyProperty (ChildProperty ComponentsProperty 1), "42")].
Proof.
  apply (proj2 (OnPicked_keys_entry_by_picked_uuid
                  Session.GuidToString Session.Fresh Session.Init)
           Session.one_entry Session.TheComponent Session.Picked);
    reflexivity.
Defined.

(** C5. With something to customize, [CustomizeDetails] takes the first
    object, fetches one property handle, the one of the member named
    [Components], edits one category, named "Rust", has the map rendered
    once by [FDynamicRustComponent::Render], and adds one custom row to that
    category, whose content is the dropdown list bound to the pick
    callback.  These are all its calls, in this order. *)
Theorem CustomizeDetails_lays_out_rust_category
    {FGuid : Type} (ToString : FGuid → FString)
    {S : Type} (h : Host (@LayoutCall FGuid) S) (s : S) :
  IsEmpty (h _ GetObjectsBeingCustomized s).1 = false →
  ∃ Object0 Others Component ComponentsHandle RustCategory Utilities Row Decl s1,
    (h _ GetObjectsBeingCustomized s).1 = Object0 :: Others
    ∧ run h (CustomizeDetails ToString) s
      = ([Ev GetObjectsBeingCustomized (Object0 :: Others);
          Ev (Cast_UEntityComponent Object0) Component;
          Ev (GetProperty "Components") ComponentsHandle;
          Ev (EditCategory "Rust") RustCategory;
          Ev GetPropertyUtilities Utilities;
          Ev (Render ComponentsHandle RustCategory Utilities
                FOnComponentRemoved_Unbound) tt;
          Ev (AddCustomRow RustCategory (LOCTEXT "Picker" "Picker")) Row;
          Ev (WholeRowContent Row) Decl;
          Ev (SetContent Decl
                {| OnUuidPickedDelegate :=
                     CreateLambda
                       (OnPicked ToString Component ComponentsHandle) |}) tt],
         Done tt s1).
Proof.
  intros Hsome.
  destruct (h _ GetObjectsBeingCustomized s) as [Objects s0] eqn:Hsel.
  cbn in Hsome.
  destruct (IsEmpty_false_head Objects Hsome) as (Object0 & Others & ->).
  destruct (CustomizeDetails_selection ToString h s Object0 Others s0 Hsel)
    as (Component & ComponentsHandle & RustCategory & Utilities & Row & Decl
        & s1 & _ & Hrun).
  exists Object0, Others, Component, ComponentsHandle, RustCategory, Utilities,
    Row, Decl, s1.
  split; [reflexivity | exact Hrun].
Qed.

Lemma CustomizeDetails_lays_out_rust_category_session :
  ∃ Object0 Others Component ComponentsHandle RustCategory Utilities Row Decl s1,
    (@panel Session.Guid _ GetObjectsBeingCustomized
       Session.component_selected).1 = Object0 :: Others
    ∧ run panel (CustomizeDetails Session.GuidToString)
        Session.component_selected
      = ([Ev GetObjectsBeingCustomized (Object0 :: Others);
          Ev (Cast_UEntityComponent Object0) Component;
          Ev (GetProperty "Components") ComponentsHandle;
          Ev (EditCategory "Rust") RustCategory;
          Ev GetPropertyUtilities Utilities;
          Ev (Render ComponentsHandle RustCategory Utilities
                FOnComponentRemoved_Unbound) tt;
          Ev (AddCustomRow RustCategory (LOCTEXT "Picker" "Picker")) Row;
          Ev (WholeRowContent Row) Decl;
          Ev (SetContent Decl
                {| OnUuidPickedDelegate :=
                     CreateLambda
                       (OnPicked Session.GuidToString Component
                          ComponentsHandle) |}) tt],
         Done tt s1).
Proof.
  apply (CustomizeDetails_lays_out_rust_category Session.GuidToString panel
           Session.component_selected).
  reflexivity.
Defined.

(** C6. A pick that goes through writes to one entry only, the last one.
    Against any host, the key is set through the key handle of the child
    fetched at the count less one and [Initialize] is given that child.
    Against the editor, whatever [AddItem] left, every entry at another
    index is as [AddItem] left it; and with an [AddItem] that appends, the
    entries that were there before the pick are all still there, in place,
    key and value, followed by the new one. *)
Theorem OnPicked_touches_last_entry_only
    {FGuid V : Type} (ToString : FGuid → FString)
    (NewEntry : Entry V) (InitializeValue : FGuid → V → V) :
  (∀ (S : Type) (h : Host (@PickerCall FGuid) S) (s : S)
     Object ComponentsHandle Node,
     (h _ (IsValid Object) s).1 = true →
     returns (outcome h
        (OnPicked ToString (Some Object) ComponentsHandle (Some Node)) s) = true →
     let tr := trace h
        (OnPicked ToString (Some Object) ComponentsHandle (Some Node)) s in
     ∃ NumChildren ChildProp KeyProp,
       In (Ev (GetNumChildren ComponentsHandle) NumChildren) tr
       ∧ In (Ev (GetChildHandle ComponentsHandle (uint32_sub NumChildren 1))
               (Some ChildProp)) tr
       ∧ In (Ev (GetKeyHandle ChildProp) (Some KeyProp)) tr
       ∧ keys_written tr = [(KeyProp, ToString (Id Node))]
       ∧ values_initialized tr = [(ChildProp, Id Node)])
  ∧ (∀ AddItemEffect (s : Editor V) Object Node,
       IsLive s Object = true →
       let Items := (AddItemEffect (ComponentsMap s)).2 in
       1 ≤ Z.of_nat (length Items) < uint32_modulus →
       ∃ s1,
         outcome (editor AddItemEffect InitializeValue)
           (OnPicked ToString (Some Object) ComponentsProperty (Some Node)) s
         = Done tt s1
         ∧ length (ComponentsMap s1) = length Items
         ∧ ∀ i : nat, i ≠ (length Items - 1)%nat →
             ComponentsMap s1 !! i = Items !! i)
  ∧ (∀ (s : Editor V) Object Node,
       IsLive s Object = true →
       room_for_one s →
       ∃ s1,
         outcome (editor (append_item NewEntry) InitializeValue)
           (OnPicked ToString (Some Object) ComponentsProperty (Some Node)) s
         = Done tt s1
         ∧ length (ComponentsMap s1) = Datatypes.S (length (ComponentsMap s))
         ∧ (∀ (i : nat) (e : Entry V),
              ComponentsMap s !! i = Some e → ComponentsMap s1 !! i = Some e)
         ∧ LiveObjects s1 = LiveObjects s).
Proof.
  split; [| split].
  - intros S h s Object ComponentsHandle Node Hvalid Hret tr.
    destruct (OnPicked_changes_in_order ToString h s Object ComponentsHandle
                Node Hvalid Hret)
      as (_ & NumChildren & ChildProp & KeyProp & _ & _
          & HNum & HChild & HKey & _ & Hkeys & Hinit).
    exists NumChildren, ChildProp, KeyProp. repeat split; assumption.
  - intros AddItemEffect s Object Node Hlive Items Hcount.
    unfold outcome.
    rewrite (OnPicked_on_any_editor ToString InitializeValue AddItemEffect
               s Object Node Hlive Hcount).
    eexists. split; [reflexivity |]. cbn [ComponentsMap]. fold Items. split.
    + rewrite !length_alter. reflexivity.
    + intros i Hi.
      rewrite !list_lookup_alter_ne by lia. reflexivity.
  - intros s Object Node Hlive Hroom. unfold outcome.
    rewrite (OnPicked_on_editor ToString NewEntry InitializeValue s Object Node
               Hlive Hroom).
    eexists. split; [reflexivity |]. cbn [after_pick ComponentsMap LiveObjects].
    repeat split.
    + rewrite length_app. cbn. lia.
    + intros i e Hie. apply lookup_app_l_Some. exact Hie.
Qed.

Lemma OnPicked_touches_last_entry_only_session :
  (∃ NumChildren ChildProp KeyProp,
     In (Ev (GetNumChildren ComponentsProperty) NumChildren)
        (trace (editor (append_item Session.Fresh) Session.Init)
           (OnPicked Session.GuidToString (Some Session.TheComponent)
              ComponentsProperty (Some Session.Picked)) Session.one_entry)
     ∧ In (Ev (GetChildHandle ComponentsProperty (uint32_sub NumChildren 1))
             (Some ChildProp))
          (trace (editor (append_item Session.Fresh) Session.Init)
             (OnPicked Session.GuidToString (Some Session.TheComponent)
                ComponentsProperty (Some Session.Picked)) Session.one_entry)
     ∧ In (Ev (GetKeyHandle ChildProp) (Some KeyProp))
          (trace (editor (append_item Session.Fresh) Session.Init)
             (OnPicked Session.GuidToString (Some Session.TheComponent)
                ComponentsProperty (Some Session.Picked)) Session.one_entry)
     ∧ keys_written
         (trace (editor (append_item Session.Fresh) Session.Init)
            (OnPicked Session.GuidToString (Some Session.TheComponent)
               ComponentsProperty (Some Session.Picked)) Session.one_entry)
       = [(KeyProp, "42")]
     ∧ values_initialized
         (trace (editor (append_item Session.Fresh) Session.Init)
            (OnPicked Session.GuidToString (Some Session.TheComponent)
               ComponentsProperty (Some Session.Picked)) Session.one_entry)
       = [(ChildProp, 42%N)])
  ∧ (∃ s1,
       outcome (editor (append_item Session.Fresh) Session.Init)
         (OnPicked Session.GuidToString (Some Session.TheComponent)
            ComponentsProperty (Some Session.Picked)) Session.one_entry
       = Done tt s1
       ∧ length (ComponentsMap s1) = 2%nat
       ∧ ∀ i : nat, i ≠ 1%nat →
           ComponentsMap s1 !! i
           = (append_item Session.Fresh (ComponentsMap Session.one_entry)).2
               !! i)
  ∧ (∃ s1,
       outcome (editor (append_item Session.Fresh) Session.Init)
         (OnPicked Session.GuidToString (Some Session.TheComponent)
            ComponentsProperty (Some Session.Picked)) Session.one_entry
       = Done tt s1
       ∧ length (ComponentsMap s1) = 2%nat
       ∧ (∀ (i : nat) (e : Entry Session.Value),
            ComponentsMap Session.one_entry !! i = Some e →
            ComponentsMap s1 !! i = Some e)
       ∧ LiveObjects s1 = [Session.TheComponent]).
Proof.
  pose proof (OnPicked_touches_last_entry_only
                Session.GuidToString Session.Fresh Session.Init)
    as (Hhandles & Hothers & Hearlier).
  split; [| split].
  - apply (Hhandles _ (editor (append_item Session.Fresh) Session.Init)
             Session.one_entry Session.TheComponent ComponentsProperty
             Session.Picked); reflexivity.
  - apply (Hothers (append_item Session.Fresh) Session.one_entry
             Session.TheComponent Session.Picked);
      [reflexivity | split; [cbn; lia | reflexivity]].
  - apply (Hearlier Session.one_entry Session.TheComponent Session.Picked);
      reflexivity.
Defined.

(** C7. Neither guard reports anything.  With nothing to customize, all
    [CustomizeDetails] has done when it returns is ask for the objects; on
    a null node, or a component that is null or gone, all the callback has
    done when it returns is, at most, ask whether the component is still
    there.  Both return normally. *)
Theorem guards_return_silently {FGuid : Type} (ToString : FGuid → FString) :
  (∀ (S : Type) (h : Host (@LayoutCall FGuid) S) (s : S),
     IsEmpty (h _ GetObjectsBeingCustomized s).1 = true →
     Forall (λ e, selection_query e = true)
       (trace h (CustomizeDetails ToString) s)
     ∧ length (trace h (CustomizeDetails ToString) s) = 1%nat
     ∧ returns (outcome h (CustomizeDetails ToString) s) = true)
  ∧ (∀ (S : Type) (h : Host (@PickerCall FGuid) S) (s : S)
       Component ComponentsHandle Node,
       pick_guard h s Component Node = true →
       Forall (λ e, validity_check e = true)
         (trace h (OnPicked ToString Component ComponentsHandle Node) s)
       ∧ (length (trace h
            (OnPicked ToString Component ComponentsHandle Node) s) ≤ 1)%nat
       ∧ returns (outcome h
            (OnPicked ToString Component ComponentsHandle Node) s) = true).
Proof.
  split.
  - intros S h s Hempty. unfold trace, outcome.
    rewrite CustomizeDetails_no_selection
      by (destruct (h _ GetObjectsBeingCustomized s).1;
          [reflexivity | discriminate]).
    cbn. repeat split. repeat constructor.
  - intros S h s Component ComponentsHandle Node Hguard.
    destruct (OnPicked_guarded ToString h s Component ComponentsHandle Node
                Hguard) as (_ & Hquiet & Hlen & Hret).
    repeat split; assumption.
Qed.

Lemma guards_return_silently_session :
  (Forall (λ e, selection_query e = true)
     (trace panel (CustomizeDetails Session.GuidToString)
        Session.nothing_selected)
   ∧ length (trace panel (CustomizeDetails Session.GuidToString)
               Session.nothing_selected) = 1%nat
   ∧ returns (outcome panel (CustomizeDetails Session.GuidToString)
                Session.nothing_selected) = true)
  ∧ (Forall (λ e, validity_check e = true)
       (trace (editor (append_item Session.Fresh) Session.Init)
          (OnPicked Session.GuidToString (Some Session.TheComponent)
             ComponentsProperty (Some Session.Picked)) Session.destroyed)
     ∧ (length (trace (editor (append_item Session.Fresh) Session.Init)
          (OnPicked Session.GuidToString (Some Session.TheComponent)
             ComponentsProperty (Some Session.Picked)) Session.destroyed)
        ≤ 1)%nat
     ∧ returns (outcome (editor (append_item Session.Fresh) Session.Init)
          (OnPicked Session.GuidToString (Some Session.TheComponent)
             ComponentsProperty (Some Session.Picked)) Session.destroyed)
       = true).
Proof.
  split.
  - apply (proj1 (guards_return_silently Session.GuidToString)). reflexivity.
  - apply (proj2 (guards_return_silently Session.GuidToString)). reflexivity.
Defined.

(** C8. [Objects[0]] is in bounds: past the [IsEmpty] test the array has a
    first element, so the range check of the access passes, and whatever
    [GetObjectsBeingCustomized] yields [CustomizeDetails] returns without
    a fault. *)
Theorem Objects_first_is_in_bounds {FGuid : Type} (ToString : FGuid → FString) :
  (∀ Objects : list TWeakObjectPtr,
     IsEmpty Objects = false →
     ∃ Object0, Objects !! 0%nat = Some Object0
       ∧ @TArray_at (@LayoutCall FGuid) _ Objects 0 = Ret Object0)
  ∧ (∀ (S : Type) (h : Host (@LayoutCall FGuid) S) (s : S),
       ∃ s1, outcome h (CustomizeDetails ToString) s = Done tt s1).
Proof.
  split.
  - intros Objects Hsome.
    destruct (IsEmpty_false_head Objects Hsome) as (Object0 & Others & ->).
    exists Object0. split; reflexivity.
  - intros S h s. apply CustomizeDetails_returns.
Qed.

Lemma Objects_first_is_in_bounds_session :
  ∃ Object0, Selected Session.component_selected !! 0%nat = Some Object0
    ∧ @TArray_at (@LayoutCall Session.Guid) _
        (Selected Session.component_selected) 0 = Ret Object0.
Proof.
  apply (proj1 (Objects_first_is_in_bounds Session.GuidToString)).
  reflexivity.
Defined.

(** C9. If the first object is not a [UEntityComponent], so that the cast
    gives null, [CustomizeDetails] still edits the "Rust" category, still
    has the map rendered and still adds the picker row; the callback it
    binds holds a null component, and every pick it then receives, from
    any host in any state, does nothing and returns. *)
Theorem CustomizeDetails_on_another_object
    {FGuid : Type} (ToString : FGuid → FString)
    {S : Type} (h : Host (@LayoutCall FGuid) S) (s : S) Object0 Others s0 :
  h _ GetObjectsBeingCustomized s = (Object0 :: Others, s0) →
  (h _ (Cast_UEntityComponent Object0) s0).1 = None →
  ∃ ComponentsHandle RustCategory Utilities Row Decl s1,
    run h (CustomizeDetails ToString) s
    = ([Ev GetObjectsBeingCustomized (Object0 :: Others);
        Ev (Cast_UEntityComponent Object0) None;
        Ev (GetProperty "Components") ComponentsHandle;
        Ev (EditCategory "Rust") RustCategory;
        Ev GetPropertyUtilities Utilities;
        Ev (Render ComponentsHandle RustCategory Utilities
              FOnComponentRemoved_Unbound) tt;
        Ev (AddCustomRow RustCategory (LOCTEXT "Picker" "Picker")) Row;
        Ev (WholeRowContent Row) Decl;
        Ev (SetContent Decl
              {| OnUuidPickedDelegate :=
                   CreateLambda (OnPicked ToString None ComponentsHandle) |})
           tt],
       Done tt s1)
    ∧ ∀ (S' : Type) (h' : Host (@PickerCall FGuid) S') (s' : S') Node,
        run h' (OnPicked ToString None ComponentsHandle Node) s'
        = ([], Done tt s').
Proof.
  intros Hsel Hcast.
  destruct (CustomizeDetails_selection ToString h s Object0 Others s0 Hsel)
    as (Component & ComponentsHandle & RustCategory & Utilities & Row & Decl
        & s1 & HComponent & Hrun).
  rewrite Hcast in HComponent. subst Component.
  exists ComponentsHandle, RustCategory, Utilities, Row, Decl, s1.
  split; [exact Hrun |].
  intros S' h' s' Node. apply OnPicked_null_component.
Qed.

Lemma CustomizeDetails_on_another_object_session :
  ∃ ComponentsHandle RustCategory Utilities Row Decl s1,
    run panel (CustomizeDetails Session.GuidToString) Session.actor_selected
    = ([Ev GetObjectsBeingCustomized [Some 2%N];
        Ev (Cast_UEntityComponent (Some 2%N)) None;
        Ev (GetProperty "Components") ComponentsHandle;
        Ev (EditCategory "Rust") RustCategory;
        Ev GetPropertyUtilities Utilities;
        Ev (Render ComponentsHandle RustCategory Utilities
              FOnComponentRemoved_Unbound) tt;
        Ev (AddCustomRow RustCategory (LOCTEXT "Picker" "Picker")) Row;
        Ev (WholeRowContent Row) Decl;
        Ev (SetContent Decl
              {| OnUuidPickedDelegate :=
                   CreateLambda
                     (OnPicked Session.GuidToString None ComponentsHandle) |})
           tt],
       Done tt s1)
    ∧ ∀ (S' : Type) (h' : Host (@PickerCall Session.Guid) S') (s' : S') Node,
        run h' (OnPicked Session.GuidToString None ComponentsHandle Node) s'
        = ([], Done tt s').
Proof.
  apply (CustomizeDetails_on_another_object Session.GuidToString panel
           Session.actor_selected (Some 2%N) [] Session.actor_selected);
    reflexivity.
Defined.

(** C10, as amended.  The child is fetched at [NumChildren - 1] in
    [uint32].  Against any host the index asked for is the count answered,
    less one, modulo 2^32.  For a count of at least one that index is the
    count less one, hence below the count; the editor then hands the child
    out, and it is the last child, whatever [AddItem] did.  It is the entry
    just appended when [AddItem] appended one; a count of at least one does
    not by itself make it so.  For a count of zero the index is 2^32 - 1,
    which no count of zero covers: the editor hands out no child and the
    callback stops on the null handle. *)
Theorem child_index_is_count_minus_one
    {FGuid V : Type} (ToString : FGuid → FString)
    (NewEntry : Entry V) (InitializeValue : FGuid → V → V) :
  (∀ (S : Type) (h : Host (@PickerCall FGuid) S) (s : S)
     Component ComponentsHandle Node,
     children_fetched (trace h
        (OnPicked ToString Component ComponentsHandle Node) s)
     = (λ NumChildren, uint32_sub NumChildren 1) <$>
         child_counts (trace h
           (OnPicked ToString Component ComponentsHandle Node) s))
  ∧ (∀ NumChildren : Z,
       1 ≤ NumChildren < uint32_modulus →
       uint32_sub NumChildren 1 = NumChildren - 1
       ∧ 0 ≤ uint32_sub NumChildren 1 < NumChildren)
  ∧ (uint32_sub 0 1 = 2 ^ 32 - 1 ∧ ¬ (0 ≤ uint32_sub 0 1 < 0))
  ∧ (∀ AddItemEffect (s : Editor V) Object Node,
       IsLive s Object = true →
       let Items := (AddItemEffect (ComponentsMap s)).2 in
       1 ≤ Z.of_nat (length Items) < uint32_modulus →
       let tr := trace (editor AddItemEffect InitializeValue)
           (OnPicked ToString (Some Object) ComponentsProperty (Some Node)) s in
       child_counts tr = [Z.of_nat (length Items)]
       ∧ children_fetched tr = [Z.of_nat (length Items) - 1]
       ∧ In (Ev (GetChildHandle ComponentsProperty (Z.of_nat (length Items) - 1))
               (Some (ChildProperty ComponentsProperty
                        (Z.of_nat (length Items) - 1)))) tr
       ∧ Items !! Z.to_nat (Z.of_nat (length Items) - 1) = last Items)
  ∧ (∀ (s : Editor V) Object Node,
       IsLive s Object = true →
       room_for_one s →
       let Items := (append_item NewEntry (ComponentsMap s)).2 in
       let tr := trace (editor (append_item NewEntry) InitializeValue)
           (OnPicked ToString (Some Object) ComponentsProperty (Some Node)) s in
       ∃ Index : Z,
         children_fetched tr = [Index]
         ∧ Items !! Z.to_nat Index = Some NewEntry
         ∧ Z.to_nat Index = length (ComponentsMap s))
  ∧ (∀ (s : Editor V) Object Node,
       IsLive s Object = true →
       ComponentsMap s = [] →
       run (editor refuse_item InitializeValue)
           (OnPicked ToString (Some Object) ComponentsProperty (Some Node)) s
       = ([Ev (IsValid Object) true;
           Ev (AsMap ComponentsProperty) (Some (MapOf ComponentsProperty));
           Ev (AddItem (MapOf ComponentsProperty)) FPropertyAccess_Fail;
           Ev (GetNumChildren ComponentsProperty) 0;
           Ev (GetChildHandle ComponentsProperty 4294967295) None],
          Crashed NullDereference s)).
Proof.
  split; [| split; [| split; [| split; [| split]]]].
  - intros S h s Component ComponentsHandle Node.
    apply OnPicked_fetches_count_minus_one.
  - intros NumChildren Hcount.
    rewrite uint32_sub_pred by exact Hcount. lia.
  - split; [exact uint32_sub_wraps | lia].
  - intros AddItemEffect s Object Node Hlive Items Hcount tr.
    subst tr. unfold trace.
    rewrite (OnPicked_on_any_editor ToString InitializeValue AddItemEffect
               s Object Node Hlive Hcount).
    fold Items. cbn. repeat split; [tauto |].
    rewrite last_lookup. f_equal. lia.
  - intros s Object Node Hlive Hroom Items tr.
    subst tr. unfold trace.
    rewrite (OnPicked_on_editor ToString NewEntry InitializeValue s Object Node
               Hlive Hroom).
    exists (Z.of_nat (length (ComponentsMap s))). cbn.
    rewrite Nat2Z.id. repeat split.
    apply list_lookup_middle. reflexivity.
  - intros s Object Node Hlive Hempty.
    apply OnPicked_without_children; assumption.
Qed.

Lemma child_index_is_count_minus_one_session :
  (uint32_sub 2 1 = 2 - 1 ∧ 0 ≤ uint32_sub 2 1 < 2)
  ∧ (child_counts
       (trace (editor (append_item Session.Fresh) Session.Init)
          (OnPicked Session.GuidToString (Some Session.TheComponent)
             ComponentsProperty (Some Session.Picked)) Session.one_entry)
     = [2]
     ∧ children_fetched
         (trace (editor (append_item Session.Fresh) Session.Init)
            (OnPicked Session.GuidToString (Some Session.TheComponent)
               ComponentsProperty (Some Session.Picked)) Session.one_entry)
       = [2 - 1]
     ∧ In (Ev (GetChildHandle ComponentsProperty (2 - 1))
             (Some (ChildProperty ComponentsProperty (2 - 1))))
          (trace (editor (append_item Session.Fresh) Session.Init)
             (OnPicked Session.GuidToString (Some Session.TheComponent)
                ComponentsProperty (Some Session.Picked)) Session.one_entry)
     ∧ (append_item Session.Fresh (ComponentsMap Session.one_entry)).2
         !! Z.to_nat (2 - 1)
       = last (append_item Session.Fresh (ComponentsMap Session.one_entry)).2)
  ∧ (∃ Index : Z,
       children_fetched
         (trace (editor (append_item Session.Fresh) Session.Init)
            (OnPicked Session.GuidToString (Some Session.TheComponent)
               ComponentsProperty (Some Session.Picked)) Session.one_entry)
       = [Index]
       ∧ (append_item Session.Fresh (ComponentsMap Session.one_entry)).2
           !! Z.to_nat Index = Some Session.Fresh
       ∧ Z.to_nat Index = length (ComponentsMap Session.one_entry))
  ∧ run (editor refuse_item Session.Init)
      (OnPicked Session.GuidToString (Some Session.TheComponent)
         ComponentsProperty (Some Session.Picked)) Session.no_entry
    = ([Ev (IsValid Session.TheComponent) true;
        Ev (AsMap ComponentsProperty) (Some (MapOf ComponentsProperty));
        Ev (AddItem (MapOf ComponentsProperty)) FPropertyAccess_Fail;
        Ev (GetNumChildren ComponentsProperty) 0;
        Ev (GetChildHandle ComponentsProperty 4294967295) None],
       Crashed NullDereference Session.no_entry).
Proof.
  pose proof (child_index_is_count_minus_one
                Session.GuidToString Session.Fresh Session.Init)
    as (_ & Hrange & _ & Hlast & Hnew & Hzero).
  split; [| split; [| split]].
  - apply Hrange. split; [lia | reflexivity].
  - apply (Hlast (append_item Session.Fresh) Session.one_entry
             Session.TheComponent Session.Picked);
      [reflexivity | split; [cbn; lia | reflexivity]].
  - apply (Hnew Session.one_entry Session.TheComponent Session.Picked);
      reflexivity.
  - apply Hzero; reflexivity.
Defined.

(** C10, as first stated, fails: a count of at least one after [AddItem]
    does not make the fetched child the newly appended entry.  When
    [AddItem] is refused on a map with one entry, the count is one, the
    index asked for is 0, and position 0 holds the entry that was there
    before; the newly appended entry would sit at position 1, past it. *)
Lemma child_index_is_not_new_when_nothing_added :
  ¬ (∀ (AddItemEffect : list (Entry Session.Value)
                        → FPropertyAccess_Result * list (Entry Session.Value))
       (s : Editor Session.Value) Object Node,
       IsLive s Object = true →
       1 ≤ Z.of_nat (length (AddItemEffect (ComponentsMap s)).2)
         < uint32_modulus →
       ∃ Index : Z,
         children_fetched
           (trace (editor AddItemEffect Session.Init)
              (OnPicked Session.GuidToString (Some Object)
                 ComponentsProperty (Some Node)) s)
         = [Index]
         ∧ Z.to_nat Index = length (ComponentsMap s)).
Proof.
  intros Hclaim.
  destruct (Hclaim refuse_item Session.one_entry Session.TheComponent
              Session.Picked)
    as (Index & Hfetched & Hnew).
  - reflexivity.
  - split; [cbn; lia | reflexivity].
  - vm_compute in Hfetched. injection Hfetched as <-.
    vm_compute in Hnew. discriminate Hnew.
Qed.

(** ** Further properties of the callback and of its binding *)

(** Running a sequence: the first part runs, and if it comes back the
    second runs from where it stopped; a fault in the first part is the
    fault of the whole. *)
Lemma run_bind {E : Type → Type} {S A B : Type} (h : Host E S)
    (p : Prog E A) (k : A → Prog E B) (s : S) :
  run h (p ≫= k) s
  = match run h p s with
    | (tr1, Done a s1) =>
        let '(tr2, out) := run h (k a) s1 in (tr1 ++ tr2, out)
    | (tr1, Crashed f s1) => (tr1, Crashed f s1)
    end.
Proof.
  revert s. induction p as [a | f | X c k' IH]; intros s; cbn.
  - destruct (run h (k a) s) as [tr2 out]. reflexivity.
  - reflexivity.
  - destruct (h X c s) as [x s1].
    change (Prog_bind k (k' x)) with (k' x ≫= k). rewrite IH.
    destruct (run h (k' x) s1) as [tr1 [a s2 | f s2]]; [| reflexivity].
    destruct (run h (k a) s2) as [tr2 out]. reflexivity.
Qed.

(** X1. The callback ends in a fault exactly when the host hands back a null
    map, child or key handle; no other answer makes it fail. *)
Theorem OnPicked_faults_iff_handle_missing
    {FGuid : Type} (ToString : FGuid → FString)
    {S : Type} (h : Host (@PickerCall FGuid) S) (s : S)
    Component ComponentsHandle Node :
  returns (outcome h (OnPicked ToString Component ComponentsHandle Node) s)
  = negb (existsb handle_missing
            (trace h (OnPicked ToString Component ComponentsHandle Node) s)).
Proof.
  unfold outcome, trace.
  destruct Node as [Node|], Component as [Object|]; cbn; try reflexivity.
  explore h; reflexivity.
Qed.

(** X2. On every path the callback either changes nothing, or has only
    called [AddItem], or has made all four changes.  It comes back in the
    first and the last case only; when it stops in between, the fault is a
    null dereference, and neither a key was set, nor a value initialized,
    nor a refresh asked for. *)
Theorem OnPicked_changes_nothing_one_or_all
    {FGuid : Type} (ToString : FGuid → FString)
    {S : Type} (h : Host (@PickerCall FGuid) S) (s : S)
    Component ComponentsHandle Node :
  let tr :=
    trace h (OnPicked ToString Component ComponentsHandle (Some Node)) s in
  match outcome h
          (OnPicked ToString Component ComponentsHandle (Some Node)) s with
  | Done _ _ =>
      mutations tr = []
      ∨ ∃ Map ChildProp KeyProp r1 r2,
          mutations tr
          = [Ev (AddItem Map) r1;
             Ev (SetValue KeyProp (ToString (Id Node))) r2;
             Ev (Initialize ChildProp (Id Node)) tt;
             Ev ForceRefreshDetails tt]
  | Crashed f _ =>
      f = NullDereference
      ∧ (mutations tr = [] ∨ ∃ Map r1, mutations tr = [Ev (AddItem Map) r1])
  end.
Proof.
  unfold outcome, trace.
  destruct Component as [Object|]; cbn; [| left; reflexivity].
  explore h;
    repeat match goal with u : unit |- _ => destruct u end;
    eauto 10.
Qed.

(** X3. The callback calls [AsMap], [GetNumChildren] and [GetChildHandle] on
    the handle it was closed over and on no other property handle. *)
Theorem OnPicked_asks_only_its_handle
    {FGuid : Type} (ToString : FGuid → FString)
    {S : Type} (h : Host (@PickerCall FGuid) S) (s : S)
    Component ComponentsHandle Node :
  Forall (λ Handle, Handle = ComponentsHandle)
    (omap asked_of
       (trace h (OnPicked ToString Component ComponentsHandle Node) s)).
Proof.
  unfold trace.
  destruct Node as [Node|], Component as [Object|]; cbn;
    try (constructor; fail).
  explore h; repeat constructor.
Qed.

(** X4. The callback does not look at what [AddItem] reports.  If [AddItem]
    leaves the map as it was and there was an entry, the pick goes to the
    last entry already there: its key becomes the picked identifier's
    string and its value is initialized anew, nothing is added, the other
    entries stay, and the refresh is asked for all the same. *)
Theorem OnPicked_rewrites_last_entry_when_nothing_added
    {FGuid V : Type} (ToString : FGuid → FString)
    (InitializeValue : FGuid → V → V)
    (AddItemEffect : list (Entry V) → FPropertyAccess_Result * list (Entry V))
    (s : Editor V) Object Node (Earlier : list (Entry V)) (LastEntry : Entry V) :
  IsLive s Object = true →
  ComponentsMap s = Earlier ++ [LastEntry] →
  (AddItemEffect (ComponentsMap s)).2 = ComponentsMap s →
  Z.of_nat (length (ComponentsMap s)) < uint32_modulus →
  outcome (editor AddItemEffect InitializeValue)
    (OnPicked ToString (Some Object) ComponentsProperty (Some Node)) s
  = Done tt
      {| LiveObjects := LiveObjects s;
         ComponentsMap :=
           Earlier ++ [(ToString (Id Node),
                        InitializeValue (Id Node) LastEntry.2)];
         Refreshes := Datatypes.S (Refreshes s) |}.
Proof.
  intros Hlive Hmap Hsame Hfits.
  assert (Hlen : length (ComponentsMap s) = Datatypes.S (length Earlier)).
  { rewrite Hmap, length_app. cbn. lia. }
  unfold outcome.
  rewrite (OnPicked_on_any_editor ToString InitializeValue AddItemEffect
             s Object Node Hlive) by (rewrite Hsame, Hlen; lia).
  cbn [snd]. rewrite Hsame, Hlen.
  replace (Z.to_nat (Z.of_nat (Datatypes.S (length Earlier)) - 1))
    with (length Earlier) by lia.
  rewrite Hmap, !alter_last. reflexivity.
Qed.

Lemma OnPicked_rewrites_last_entry_when_nothing_added_session :
  outcome (editor refuse_item Session.Init)
    (OnPicked Session.GuidToString (Some Session.TheComponent)
       ComponentsProperty (Some Session.Picked)) Session.one_entry
  = Done tt {| LiveObjects := [Session.TheComponent];
               ComponentsMap := [("42", Some 42%N)];
               Refreshes := 1 |}.
Proof.
  apply (OnPicked_rewrites_last_entry_when_nothing_added
           Session.GuidToString Session.Init refuse_item Session.one_entry
           Session.TheComponent Session.Picked [] ("7", Some 7%N));
    reflexivity.
Defined.

(** X5. Picks delivered one after the other to a component that is there
    add up, as long as every key stays its own: the key a new child starts
    under, the keys already in the map and the keys of the picks are all
    different.  The map then ends as it was, followed by one entry per pick
    that carried a node, in the order of the picks, each under its own
    identifier; picks without a node leave no mark; one refresh is asked
    for per entry added; and no two entries of the map share a key. *)
Theorem deliver_appends_in_pick_order
    {FGuid V : Type} (ToString : FGuid → FString)
    (NewEntry : Entry V) (InitializeValue : FGuid → V → V)
    (Object : UObject) (Picks : list (option (@FUuidViewNode FGuid)))
    (s : Editor V) :
  IsLive s Object = true →
  Z.of_nat (length (ComponentsMap s))
    + Z.of_nat (length (picked_nodes Picks)) < uint32_modulus →
  NoDup (NewEntry.1 :: (fst <$> ComponentsMap s) ++ picked_keys ToString Picks) →
  ∃ s1,
    outcome (editor (append_item NewEntry) InitializeValue)
      (deliver ToString (Some Object) ComponentsProperty Picks) s
    = Done tt s1
    ∧ s1 = {| LiveObjects := LiveObjects s;
              ComponentsMap :=
                ComponentsMap s
                  ++ (picked_entry InitializeValue NewEntry ToString
                        <$> picked_nodes Picks);
              Refreshes := (Refreshes s + length (picked_nodes Picks))%nat |}
    ∧ fst <$> ComponentsMap s1
      = (fst <$> ComponentsMap s) ++ picked_keys ToString Picks
    ∧ NoDup (fst <$> ComponentsMap s1).
Proof.
  intros Hlive Hroom Hkeys.
  assert (Hrun : outcome (editor (append_item NewEntry) InitializeValue)
             (deliver ToString (Some Object) ComponentsProperty Picks) s
           = Done tt
               {| LiveObjects := LiveObjects s;
                  ComponentsMap :=
                    ComponentsMap s
                      ++ (picked_entry InitializeValue NewEntry ToString
                            <$> picked_nodes Picks);
                  Refreshes :=
                    (Refreshes s + length (picked_nodes Picks))%nat |}).
  { clear Hkeys. revert s Hlive Hroom.
    induction Picks as [|Node Later IH]; intros s Hlive Hroom.
    - cbn. rewrite app_nil_r, Nat.add_0_r. destruct s; reflexivity.
    - unfold outcome. cbn [deliver]. rewrite run_bind.
      destruct Node as [Node|].
      + change (picked_nodes (Some Node :: Later))
          with (Node :: picked_nodes Later) in Hroom.
        cbn [length] in Hroom.
        assert (Hone : room_for_one s) by (unfold room_for_one; lia).
        rewrite (OnPicked_on_editor ToString NewEntry InitializeValue s Object
                   Node Hlive Hone).
        specialize (IH (after_pick InitializeValue NewEntry ToString s Node)).
        unfold outcome in IH.
        destruct (run (editor (append_item NewEntry) InitializeValue)
                    (deliver ToString (Some Object) ComponentsProperty Later)
                    (after_pick InitializeValue NewEntry ToString s Node))
          as [tr2 out].
        cbn [snd] in *. rewrite IH.
        * cbn [after_pick LiveObjects ComponentsMap Refreshes picked_nodes omap
               list_omap id fmap list_fmap length].
          rewrite <- app_assoc. cbn [app].
          rewrite Nat.add_succ_r. reflexivity.
        * exact Hlive.
        * cbn [after_pick ComponentsMap]. rewrite length_app. cbn [length]. lia.
      + rewrite OnPicked_null_node.
        specialize (IH s Hlive Hroom). unfold outcome in IH.
        destruct (run (editor (append_item NewEntry) InitializeValue)
                    (deliver ToString (Some Object) ComponentsProperty Later) s)
          as [tr2 out].
        cbn [snd] in *. exact IH. }
  eexists. split; [exact Hrun |]. split; [reflexivity |].
  cbn [ComponentsMap].
  assert (Hfst : fst <$> ComponentsMap s
                   ++ (picked_entry InitializeValue NewEntry ToString
                         <$> picked_nodes Picks)
                 = (fst <$> ComponentsMap s) ++ picked_keys ToString Picks).
  { rewrite fmap_app. unfold picked_keys.
    rewrite <- list_fmap_compose. reflexivity. }
  split; [exact Hfst |].
  rewrite Hfst. apply NoDup_cons in Hkeys. apply Hkeys.
Qed.

Lemma deliver_appends_in_pick_order_session :
  ∃ s1,
    outcome (editor (append_item Session.Fresh) Session.Init)
      (deliver Session.GuidToString (Some Session.TheComponent)
         ComponentsProperty Picks.three) Session.one_entry
    = Done tt s1
    ∧ s1 = {| LiveObjects := [Session.TheComponent];
              ComponentsMap :=
                [("7", Some 7%N); ("42", Some 42%N); ("43", Some 43%N)];
              Refreshes := 2 |}
    ∧ fst <$> ComponentsMap s1 = ["7"; "42"; "43"]
    ∧ NoDup (fst <$> ComponentsMap s1).
Proof.
  apply (deliver_appends_in_pick_order Session.GuidToString Session.Fresh
           Session.Init Session.TheComponent Picks.three Session.one_entry).
  - reflexivity.
  - reflexivity.
  - apply (bool_decide_unpack _). vm_compute. exact I.
Defined.

(** The one callback [CustomizeDetails] binds, over what the host answered
    to the cast and to the request for the handle. *)
Lemma CustomizeDetails_binds_OnPicked
    {FGuid : Type} (ToString : FGuid → FString)
    {S : Type} (h : Host (@LayoutCall FGuid) S) (s : S)
    Object0 Others s0 Component s1 :
  h _ GetObjectsBeingCustomized s = (Object0 :: Others, s0) →
  h _ (Cast_UEntityComponent Object0) s0 = (Component, s1) →
  bound_callbacks (trace h (CustomizeDetails ToString) s)
  = [OnPicked ToString Component (h _ (GetProperty "Components") s1).1].
Proof.
  intros Hsel Hcast. unfold trace. cbn. rewrite Hsel. cbn. rewrite Hcast. cbn.
  do 7 answer h.
  match goal with
  | Hx : h _ (GetProperty Components_MemberName) s1 = _ |- _ =>
      unfold Components_MemberName in Hx; rewrite Hx
  end.
  reflexivity.
Qed.

(** X6. Laying out and picking fit together.  When the first object being
    customized casts to a component and the handle found under the name
    [Components] is the map's, [CustomizeDetails] binds one callback, and
    that callback, handed a node while the component is there, appends the
    entry for that node to the map and asks for one refresh; handed
    anything once the component is gone, it leaves the editor as it is.
    The other objects being customized play no part. *)
Theorem picker_row_adds_to_first_component
    {FGuid V : Type} (ToString : FGuid → FString)
    (NewEntry : Entry V) (InitializeValue : FGuid → V → V)
    {S : Type} (h : Host (@LayoutCall FGuid) S) (s : S)
    Object0 Others s0 Object s1 :
  h _ GetObjectsBeingCustomized s = (Object0 :: Others, s0) →
  h _ (Cast_UEntityComponent Object0) s0 = (Some Object, s1) →
  (h _ (GetProperty "Components") s1).1 = ComponentsProperty →
  ∃ Callback,
    bound_callbacks (trace h (CustomizeDetails ToString) s) = [Callback]
    ∧ (∀ (e : Editor V) Node,
         IsLive e Object = true →
         room_for_one e →
         outcome (editor (append_item NewEntry) InitializeValue)
           (Callback (Some Node)) e
         = Done tt (after_pick InitializeValue NewEntry ToString e Node))
    ∧ (∀ AddItemEffect (e : Editor V) Node,
         IsLive e Object = false →
         outcome (editor AddItemEffect InitializeValue) (Callback Node) e
         = Done tt e).
Proof.
  intros Hsel Hcast Hprop.
  exists (OnPicked ToString (Some Object) ComponentsProperty).
  split; [| split].
  - rewrite (CustomizeDetails_binds_OnPicked ToString h s Object0 Others s0
               (Some Object) s1 Hsel Hcast).
    rewrite Hprop. reflexivity.
  - intros e Node Hlive Hroom. unfold outcome.
    rewrite (OnPicked_on_editor ToString NewEntry InitializeValue e Object Node
               Hlive Hroom). reflexivity.
  - intros AddItemEffect e Node Hgone.
    apply OnPicked_on_editor_guarded. unfold pick_guard.
    destruct Node; [| reflexivity]. cbn. rewrite Hgone. reflexivity.
Qed.

Lemma picker_row_adds_to_first_component_session :
  ∃ Callback,
    bound_callbacks
      (trace panel (CustomizeDetails Session.GuidToString)
         Session.component_selected) = [Callback]
    ∧ (∀ (e : Editor Session.Value) Node,
         IsLive e Session.TheComponent = true →
         room_for_one e →
         outcome (editor (append_item Session.Fresh) Session.Init)
           (Callback (Some Node)) e
         = Done tt (after_pick Session.Init Session.Fresh
                      Session.GuidToString e Node))
    ∧ (∀ AddItemEffect (e : Editor Session.Value) Node,
         IsLive e Session.TheComponent = false →
         outcome (editor AddItemEffect Session.Init) (Callback Node) e
         = Done tt e).
Proof.
  apply (picker_row_adds_to_first_component Session.GuidToString
           Session.Fresh Session.Init panel Session.component_selected
           (Some Session.TheComponent) [] Session.component_selected
           Session.TheComponent Session.component_selected);
    reflexivity.
Defined.
